(** * go-marathon: the request dispatcher of [client.go]

    A shallow embedding of [marathonClient.apiCall], its four method
    wrappers, [Ping], [GetMarathonURL] and [NewClient], followed by the
    properties of the dispatcher: status classification, error
    propagation, headers, and the absence of retries; then what a call
    leaves alone, what it sends, when it decodes, closes and logs, and
    where its errors come from.

    The Go function talks to four collaborators that live outside
    [client.go]: the cluster (an interface), [encoding/json], [net/http]
    and the logger.  They appear here as type classes (the interface and
    the library entry points) and as events on a trace (every call the
    function makes to one of them is recorded, in order). *)

From Stdlib Require Import ZArith List Ascii String Lia.
From stdpp Require Import gmap strings.

Local Open Scope Z_scope.
Local Open Scope string_scope.

(** ** Bytes *)

(** A Go [[]byte]; the nil slice and the empty slice are both [[]]. *)
Definition bytes := list Byte.byte.

Definition bytes_of_string (s : string) : bytes := list_byte_of_string s.

(** ** Errors *)

(** The error values of [encoding/json]. *)
Inductive json_error :=
| UnsupportedTypeError (type : string)
| UnsupportedValueError (value : string)
| MarshalerError (type : string)
| SyntaxError (msg : string) (offset : Z)
| UnmarshalTypeError (value : string)
| InvalidUnmarshalError.

(** [*url.Error]: the only error type [http.Client.Do] returns; its
    [Timeout] method reports whether the client's deadline expired. *)
Record url_error := {
  Op : string;
  Err_URL : string;
  Timeout : bool;
  Err_msg : string
}.

(** A Go [error] value that can reach a caller of [apiCall]: one of the
    seven package-level sentinels (lines 135-150), or a value made by
    another package. *)
Inductive error :=
| ErrInvalidEndpoint
| ErrInvalidResponse
| ErrDoesNotExist
| ErrMarathonDown
| ErrInvalidArgument
| ErrTimeoutError
| ErrConflict
| JSONError (e : json_error)
| URLError (e : url_error)
| ReadError (timeout : bool) (msg : string)
| OtherError (msg : string).

(** The message given to [errors.New] for each sentinel. *)
Definition sentinel_message (e : error) : option string :=
  match e with
  | ErrInvalidEndpoint => Some "invalid Marathon endpoint specified"
  | ErrInvalidResponse => Some "invalid response from Marathon"
  | ErrDoesNotExist => Some "the resource does not exist"
  | ErrMarathonDown => Some "all the Marathon hosts are presently down"
  | ErrInvalidArgument => Some "the argument passed is invalid"
  | ErrTimeoutError => Some "the operation has timed out"
  | ErrConflict => Some "conflicting resource"
  | _ => None
  end.

(** ** [encoding/base64], standard alphabet with padding *)

Module Base64.

Definition alphabet : string :=
  "ABCDEFGHIJKLMNOPQRSTUVWXYZabcdefghijklmnopqrstuvwxyz0123456789+/".

(** The character of a 6-bit group. *)
Definition enc (n : Z) : ascii :=
  match String.get (Z.to_nat n) alphabet with
  | Some c => c
  | None => "="%char
  end.

Definition code (c : ascii) : Z := Z.of_nat (nat_of_ascii c).

Fixpoint groups (l : list Z) : string :=
  match l with
  | [] => EmptyString
  | [a] =>
      String (enc (Z.shiftr a 2))
        (String (enc (Z.shiftl (Z.land a 3) 4)) "==")
  | [a; b] =>
      String (enc (Z.shiftr a 2))
        (String (enc (Z.lor (Z.shiftl (Z.land a 3) 4) (Z.shiftr b 4)))
           (String (enc (Z.shiftl (Z.land b 15) 2)) "="))
  | a :: b :: c :: rest =>
      String (enc (Z.shiftr a 2))
        (String (enc (Z.lor (Z.shiftl (Z.land a 3) 4) (Z.shiftr b 4)))
           (String (enc (Z.lor (Z.shiftl (Z.land b 15) 2) (Z.shiftr c 6)))
              (String (enc (Z.land c 63)) (groups rest))))
  end.

Definition EncodeToString (s : string) : string :=
  groups (map code (list_ascii_of_string s)).

End Base64.

(** ** [net/http]: headers, requests, responses *)

(** [http.Header] is a [map[string][]string]. *)
Definition Header_Add (k v : string) (h : gmap string (list string))
  : gmap string (list string) :=
  <[k := (default [] (h !! k) ++ [v])%list]> h.

Definition Header_Set (k v : string) (h : gmap string (list string))
  : gmap string (list string) :=
  <[k := [v]]> h.

Record Request := {
  Method : string;
  Req_URL : string;
  Header : gmap string (list string);
  Req_Body : bytes
}.

Definition with_Header (f : gmap string (list string) -> gmap string (list string))
  (r : Request) : Request :=
  {| Method := Method r; Req_URL := Req_URL r;
     Header := f (Header r); Req_Body := Req_Body r |}.

(** [basicAuth] and the method [SetBasicAuth] of [net/http]. *)
Definition basicAuth (username password : string) : string :=
  Base64.EncodeToString (username ++ ":" ++ password).

Definition SetBasicAuth (username password : string) (r : Request) : Request :=
  with_Header (Header_Set "Authorization" ("Basic " ++ basicAuth username password)) r.

(** What the code reads of an [*http.Response].  The body is a stream
    fixed when the response arrives: the bytes it will deliver, and the
    error, if any, that ends it before EOF. *)
Record Response := {
  Status : string;
  StatusCode : Z;
  Body_data : bytes;
  Body_err : option error
}.

(** [ioutil.ReadAll(response.Body)]; the bytes read before an error are
    returned by Go too, and dropped by the caller. *)
Definition ioutil_ReadAll (resp : Response) : error + bytes :=
  match Body_err resp with
  | Some e => inl e
  | None => inr (Body_data resp)
  end.


(** [http.Client]: only its [Timeout] (a [time.Duration], an int64 count
    of nanoseconds; zero means no timeout) is set by this package. *)
Record http_Client := { Client_Timeout : Z }.

Definition Second : Z := 1000000000.

(** int64 wrap-around of the [time.Duration] product. *)
Definition wrap64 (x : Z) : Z := (x + 2 ^ 63) mod 2 ^ 64 - 2 ^ 63.

(** ** The collaborators *)

(** The [Cluster] interface held in [marathonClient.cluster].  Its
    implementation and [newCluster] belong to another file of the
    package; a call may change the cluster's rotation state, which is
    returned next to the result. *)
Class Cluster (C : Type) := {
  newCluster : string -> error + C;
  GetMember : C -> (error + string) * C;
  Cluster_URL : C -> string
}.

(** [net/http] over a network of type [N]: the checks of
    [http.NewRequest] (method token, [url.Parse]) and one round trip of
    [http.Client.Do], whose failures are all [*url.Error] values. *)
Class HTTP (N : Type) := {
  http_validate : string -> string -> option error;
  Client_Do : http_Client -> Request -> N -> (url_error + Response) * N
}.

(** [json.Marshal] at the dynamic type of a request body. *)
Class Marshaler (V : Type) := {
  json_Marshal : V -> json_error + bytes
}.

(** [json.Unmarshal] into a value of the result's pointee type: the
    error, if any, and the pointee afterwards (on a type mismatch Go
    keeps going and may leave the pointee partly filled). *)
Class Unmarshaler (S : Type) := {
  json_Unmarshal : bytes -> S -> option json_error * S
}.

(** The fields of [Config] that [client.go] reads. *)
Record Config := {
  Config_URL : string;
  HTTPBasicAuthUser : string;
  HTTPBasicPassword : string;
  RequestTimeout : Z
}.

(** ** The trace *)

Definition loc := positive.

(** The three [log.Printf] calls of [apiCall]. *)
Inductive log_entry :=
| LogCall (method url : string) (jsonBody : bytes) (status : string) (respBody : bytes)
| LogUnmarshalFailed (e : json_error)
| LogUnknown (respBody : bytes).

Inductive event :=
| EvGetMember
| EvMarshal
| EvNewRequest (method url : string) (body : bytes)
| EvDo (request : Request)
| EvReadAll
| EvUnmarshal (respBody : bytes) (result : loc)
| EvLog (entry : log_entry)
| EvClose.

Definition isGetMember (e : event) : bool :=
  match e with EvGetMember => true | _ => false end.
Definition isMarshal (e : event) : bool :=
  match e with EvMarshal => true | _ => false end.
Definition isNewRequest (e : event) : bool :=
  match e with EvNewRequest _ _ _ => true | _ => false end.
Definition isDo (e : event) : bool :=
  match e with EvDo _ => true | _ => false end.
Definition isUnmarshal (e : event) : bool :=
  match e with EvUnmarshal _ _ => true | _ => false end.

Definition isReadAll (e : event) : bool :=
  match e with EvReadAll => true | _ => false end.
Definition isLog (e : event) : bool :=
  match e with EvLog _ => true | _ => false end.
Definition isClose (e : event) : bool :=
  match e with EvClose => true | _ => false end.

Fixpoint count (p : event -> bool) (evs : list event) : nat :=
  match evs with
  | [] => O
  | e :: evs => ((if p e then 1 else 0) + count p evs)%nat
  end.

(** ** The client and its dispatcher *)

Section Dispatcher.

Context {C N V S : Type}.
Context `{Cluster C} `{HTTP N} `{Marshaler V} `{Unmarshaler S}.

(** The constant [marathonAPIPing], declared in another file. *)
Variable marathonAPIPing : string.

(** [marathonClient] without its mutex and its events server, which
    this file never touches.  A listener channel is known by its
    address. *)
Record marathonClient := {
  config : Config;
  subscribedToSSE : bool;
  ipAddress : string;
  httpClient : http_Client;
  cluster : C;
  listeners : gmap loc Z
}.

Definition NewClient (config : Config) : error + marathonClient :=
  match newCluster (Config_URL config) with
  | inl err => inl err
  | inr cluster =>
      inr {| config := config;
             subscribedToSSE := false;
             ipAddress := "";
             httpClient :=
               {| Client_Timeout := wrap64 (wrap64 (RequestTimeout config) * Second) |};
             cluster := cluster;
             listeners := ∅ |}
  end.

Definition GetMarathonURL (r : marathonClient) : string :=
  Cluster_URL (cluster r).

(** What a call can read and change: the client behind the receiver
    pointer, the network, the heap cells that result pointers point
    to, and the trace of what has been done so far. *)
Record state := {
  self : marathonClient;
  net : N;
  heap : gmap loc S;
  trace : list event
}.

Definition set_cluster (c : C) (st : state) : state :=
  {| self := {| config := config (self st);
                subscribedToSSE := subscribedToSSE (self st);
                ipAddress := ipAddress (self st);
                httpClient := httpClient (self st);
                cluster := c;
                listeners := listeners (self st) |};
     net := net st; heap := heap st; trace := trace st |}.

Definition set_net (n : N) (st : state) : state :=
  {| self := self st; net := n; heap := heap st; trace := trace st |}.

Definition set_heap (h : gmap loc S) (st : state) : state :=
  {| self := self st; net := net st; heap := h; trace := trace st |}.

Definition record (e : event) (st : state) : state :=
  {| self := self st; net := net st; heap := heap st;
     trace := (trace st ++ [e])%list |}.

(** *** A state and error monad: [inl err] is Go's [return err] *)

Definition M (A : Type) : Type := state -> (error + A) * state.

Definition ret {A} (a : A) : M A := fun st => (inr a, st).

Definition fail {A} (e : error) : M A := fun st => (inl e, st).

Definition bind {A B} (m : M A) (f : A -> M B) : M B :=
  fun st =>
    match m st with
    | (inl e, st') => (inl e, st')
    | (inr a, st') => f a st'
    end.

Definition emit (e : event) : M unit := fun st => (inr tt, record e st).

Definition lift {A} (r : error + A) : M A := fun st => (r, st).

(** [defer cleanup] followed by the rest of the function: the cleanup
    runs on every way out, and the result is that of the rest. *)
Definition defer {A} (cleanup : M unit) (rest : M A) : M A :=
  fun st => let (r, st') := rest st in (r, snd (cleanup st')).


Notation "x <- m ;; k" := (bind m (fun x => k))
  (at level 100, m at next level, right associativity).
Notation "m ;;; k" := (bind m (fun _ => k))
  (at level 100, right associativity).

(** *** The calls [apiCall] makes *)

(** [r.cluster.GetMember()] *)
Definition cluster_GetMember : M string :=
  fun st =>
    let (r, c) := GetMember (cluster (self st)) in
    (r, record EvGetMember (set_cluster c st)).

(** Lines 229-235: a nil body leaves [jsonBody] the nil slice, and
    [json.Marshal] is not called. *)
Definition marshal_body (body : option V) : json_error + bytes :=
  match body with
  | Some b => json_Marshal b
  | None => inr []
  end.

Definition json_Marshal_body (body : option V) : M bytes :=
  match body with
  | Some b =>
      emit EvMarshal ;;;
      match json_Marshal b with
      | inl e => fail (JSONError e)
      | inr jsonBody => ret jsonBody
      end
  | None => ret []
  end.

(** [http.NewRequest]: an empty method means GET; the method and the
    URL are checked; the request starts with an empty header map. *)
Definition NewRequest (method url : string) (body : bytes) : error + Request :=
  let method := if String.eqb method "" then "GET" else method in
  match http_validate method url with
  | Some e => inl e
  | None =>
      inr {| Method := method; Req_URL := url; Header := ∅; Req_Body := body |}
  end.

Definition http_NewRequest (method url : string) (body : bytes) : M Request :=
  emit (EvNewRequest method url body) ;;;
  lift (NewRequest method url body).

(** Lines 243-248. *)
Definition add_headers (cfg : Config) (request : Request) : Request :=
  let request :=
    if negb (String.eqb (HTTPBasicAuthUser cfg) "")
    then SetBasicAuth (HTTPBasicAuthUser cfg) (HTTPBasicPassword cfg) request
    else request in
  let request := with_Header (Header_Add "Content-Type" "application/json") request in
  with_Header (Header_Add "Accept" "application/json") request.

(** [r.httpClient.Do(request)] *)
Definition httpClient_Do (request : Request) : M Response :=
  fun st =>
    let (r, n) := Client_Do (httpClient (self st)) request (net st) in
    (match r with
     | inl e => inl (URLError e)
     | inr response => inr response
     end,
     record (EvDo request) (set_net n st)).

Definition read_body (response : Response) : M bytes :=
  emit EvReadAll ;;;
  lift (ioutil_ReadAll response).

(** [json.Unmarshal(respBody, result)] for a non-nil [result].  A
    result that holds no pointer to a live cell (a nil pointer, a
    non-pointer) is refused by the library. *)
Definition json_Unmarshal_into (respBody : bytes) (result : loc)
  : M (option json_error) :=
  fun st =>
    match heap st !! result with
    | None =>
        (inr (Some InvalidUnmarshalError),
         record (EvUnmarshal respBody result) st)
    | Some s =>
        let (err, s') := json_Unmarshal respBody s in
        (inr err,
         record (EvUnmarshal respBody result)
           (set_heap (<[result := s']> (heap st)) st))
    end.

Definition log_Printf (entry : log_entry) : M unit := emit (EvLog entry).

Definition get_config : M Config := fun st => (inr (config (self st)), st).

(** *** [apiCall], lines 220-284 *)

Definition apiCall (method uri : string) (body : option V) (result : option loc)
  : M unit :=
  marathon <- cluster_GetMember ;;
  let url := marathon ++ "/" ++ uri in
  jsonBody <- json_Marshal_body body ;;
  request <- http_NewRequest method url jsonBody ;;
  cfg <- get_config ;;
  let request := add_headers cfg request in
  response <- httpClient_Do request ;;
  defer (emit EvClose)
    (respBody <- read_body response ;;
     log_Printf (LogCall (Method request) (Req_URL request) jsonBody
                   (Status response) respBody) ;;;
     if ((200 <=? StatusCode response) && (StatusCode response <=? 299))%Z then
       match result with
       | Some result =>
           err <- json_Unmarshal_into respBody result ;;
           match err with
           | Some err =>
               log_Printf (LogUnmarshalFailed err) ;;;
               fail ErrInvalidResponse
           | None => ret tt
           end
       | None => ret tt
       end
     else if (StatusCode response =? 404)%Z then fail ErrDoesNotExist
     else if (StatusCode response =? 409)%Z then fail ErrConflict
     else if (500 <=? StatusCode response)%Z then fail ErrInvalidResponse
     else
       log_Printf (LogUnknown respBody) ;;;
       fail ErrInvalidResponse).

Definition apiGet (uri : string) (post : option V) (result : option loc) : M unit :=
  apiCall "GET" uri post result.

Definition apiPut (uri : string) (post : option V) (result : option loc) : M unit :=
  apiCall "PUT" uri post result.

Definition apiPost (uri : string) (post : option V) (result : option loc) : M unit :=
  apiCall "POST" uri post result.

Definition apiDelete (uri : string) (post : option V) (result : option loc) : M unit :=
  apiCall "DELETE" uri post result.

(** [Ping], lines 196-201: Go's [(bool, error)] with [None] for nil. *)
Definition Ping : state -> (bool * option error) * state :=
  fun st =>
    match apiGet marathonAPIPing None None st with
    | (inl err, st') => ((false, Some err), st')
    | (inr _, st') => ((true, None), st')
    end.

(** *** Reading a run *)

(** The exchange of a call made in [st] went through: a member was
    handed out, the body (if any) was serialized, the request was
    accepted and sent, and [response] came back with a body that read
    to the end as [respBody]. *)
Definition exchange_yields (method uri : string) (body : option V) (st : state)
  (response : Response) (respBody : bytes) : Prop :=
  exists marathon c jsonBody request n,
    GetMember (cluster (self st)) = (inr marathon, c)
    /\ marshal_body body = inr jsonBody
    /\ NewRequest method (marathon ++ "/" ++ uri) jsonBody = inr request
    /\ Client_Do (httpClient (self st)) (add_headers (config (self st)) request)
         (net st) = (inr response, n)
    /\ ioutil_ReadAll response = inr respBody.

(** The events a run added to the trace it started from. *)
Definition emitted (st st' : state) : list event :=
  drop (length (trace st)) (trace st').

(** Go's returned [error]: [None] is nil. *)
Definition returned {A} (r : (error + A) * state) : option error :=
  match fst r with
  | inl e => Some e
  | inr _ => None
  end.

(** What [json.Unmarshal] reports for the result of a call made in
    [st], if the call gets as far as decoding [respBody]. *)
Definition decode_error (respBody : bytes) (result : option loc) (st : state) : option json_error :=
  match result with
  | None => None
  | Some l =>
      match heap st !! l with
      | None => Some InvalidUnmarshalError
      | Some s => fst (json_Unmarshal respBody s)
      end
  end.

(** The heap after decoding [respBody] into the result. *)
Definition decoded_heap (respBody : bytes) (result : option loc) (st : state) : gmap loc S :=
  match result with
  | None => heap st
  | Some l =>
      match heap st !! l with
      | None => heap st
      | Some s => <[l := snd (json_Unmarshal respBody s)]> (heap st)
      end
  end.

Definition success (code : Z) : bool := ((200 <=? code) && (code <=? 299))%Z.

(** The return value of lines 263-283, read off the if-chain. *)
Definition verdict (code : Z) (decode : option json_error) : option error :=
  if success code then
    match decode with Some _ => Some ErrInvalidResponse | None => None end
  else if (code =? 404)%Z then Some ErrDoesNotExist
  else if (code =? 409)%Z then Some ErrConflict
  else Some ErrInvalidResponse.

(** The four values [apiCall] can return after a completed exchange. *)
Definition classes : list (option error) :=
  [None; Some ErrInvalidResponse; Some ErrDoesNotExist; Some ErrConflict].

End Dispatcher.

Arguments marathonClient : clear implicits.
Arguments state : clear implicits.

(** ** A test double

    A two-member cluster handing out its members in turn, a network that
    plays back a script of outcomes, and a codec for two small types:
    enough to run the dispatcher on concrete calls. *)

Module Fake.

Record pool := { members : list string; cursor : nat }.

#[export] Instance pool_Cluster : Cluster pool := {
  newCluster url :=
    if String.eqb url "" then inl ErrInvalidEndpoint
    else inr {| members := [url]; cursor := 0 |};
  GetMember c :=
    match members c !! (cursor c mod length (members c))%nat with
    | Some m =>
        (inr m, {| members := members c; cursor := Datatypes.S (cursor c) |})
    | None => (inl ErrInvalidEndpoint, c)
    end;
  Cluster_URL c := String.concat "," (members c)
}.

(** The network answers the next request with the head of its script. *)
#[export] Instance script_HTTP : HTTP (list (url_error + Response)) := {
  http_validate method url :=
    match String.index 0 " " method with
    | Some _ => Some (OtherError "net/http: invalid method")
    | None => None
    end;
  Client_Do _ request script :=
    match script with
    | outcome :: script => (outcome, script)
    | [] =>
        (inl {| Op := Method request; Err_URL := Req_URL request;
                Timeout := false; Err_msg := "connection refused" |}, [])
    end
}.

(** Request bodies: a string, or a channel, which JSON cannot carry. *)
Inductive payload := PString (s : string) | PChan.

Definition quote : string := String "034"%char EmptyString.

#[export] Instance payload_Marshaler : Marshaler payload := {
  json_Marshal v :=
    match v with
    | PString s => inr (bytes_of_string (quote ++ s ++ quote))
    | PChan => inl (UnsupportedTypeError "chan int")
    end
}.

(** Results: an unsigned integer, decoded from its decimal digits. *)
Fixpoint digits (acc : Z) (l : list ascii) : option Z :=
  match l with
  | [] => Some acc
  | c :: l =>
      let d := (Z.of_nat (nat_of_ascii c) - 48)%Z in
      if ((0 <=? d) && (d <=? 9))%Z then digits (10 * acc + d)%Z l else None
  end.

#[export] Instance Z_Unmarshaler : Unmarshaler Z := {
  json_Unmarshal b s :=
    match list_ascii_of_string (string_of_list_byte b) with
    | [] => (Some (SyntaxError "unexpected end of JSON input" 0), s)
    | l =>
        match digits 0 l with
        | Some n => (None, n)
        | None => (Some (SyntaxError "invalid character" 0), s)
        end
    end
}.

Definition reply (code : Z) (body : string) : Response :=
  {| Status := ""; StatusCode := code;
     Body_data := bytes_of_string body; Body_err := None |}.

Definition response (code : Z) (body : string) : url_error + Response :=
  inr (reply code body).

(** A response whose body stops short because the deadline expired. *)
Definition stalled (code : Z) : Response :=
  {| Status := ""; StatusCode := code; Body_data := [];
     Body_err := Some (ReadError true "context deadline exceeded") |}.

Definition timeout : url_error :=
  {| Op := "Get"; Err_URL := "http://a:8080/v2/apps";
     Timeout := true;
     Err_msg := "net/http: request canceled (Client.Timeout exceeded while awaiting headers)" |}.

Definition cfg (user password : string) : Config :=
  {| Config_URL := "http://a:8080,http://b:8080";
     HTTPBasicAuthUser := user; HTTPBasicPassword := password;
     RequestTimeout := 5 |}.

Definition client (user password : string) (ms : list string) : marathonClient pool :=
  {| config := cfg user password;
     subscribedToSSE := false;
     ipAddress := "";
     httpClient := {| Client_Timeout := 5 * Second |};
     cluster := {| members := ms; cursor := 0 |};
     listeners := ∅ |}.

(** A fresh world: the client, the script, and one result cell at
    address 1 holding 0. *)
Definition world (user password : string) (ms : list string)
  (script : list (url_error + Response))
  : state pool (list (url_error + Response)) Z :=
  {| self := client user password ms;
     net := script;
     heap := {[ 1%positive := 0%Z ]};
     trace := [] |}.

Definition two : list string := ["http://a:8080"; "http://b:8080"].


(** What the scripted network reports once its script has run out. *)
Definition refused (method url : string) : url_error :=
  {| Op := method; Err_URL := url; Timeout := false;
     Err_msg := "connection refused" |}.

(** The request a client without credentials sends for a nil body. *)
Definition plain (method url : string) : Request :=
  add_headers (cfg "" "")
    {| Method := method; Req_URL := url; Header := ∅; Req_Body := [] |}.

End Fake.

(** * Properties *)

Local Open Scope Z_scope.

Section DispatcherFacts.

Context {C N V S : Type}.
Context `{Cluster C} `{HTTP N} `{Marshaler V} `{Unmarshaler S}.

Implicit Types (method uri : string) (body : option V) (result : option loc).
Implicit Types (st : state C N S) (response : Response) (respBody : bytes).

Ltac unfold_call :=
  unfold apiCall, bind, cluster_GetMember, json_Marshal_body, http_NewRequest,
    get_config, httpClient_Do, defer, read_body, json_Unmarshal_into,
    log_Printf, emit, lift, ret, fail.

Ltac reduce := cbn -[NewRequest add_headers ioutil_ReadAll drop].

(** Replays the steps of a call up to the point where the response
    body has been read, from the five facts of [exchange_yields]. *)
Ltac replay_request Hm Hj Hr :=
  unfold_call; rewrite Hm;
  match goal with
  | body : option _ |- _ =>
      destruct body; simpl in Hj; [rewrite Hj | injection Hj as <-]
  end;
  reduce; rewrite Hr; reduce.

Ltac replay Hm Hj Hr Hd Hb :=
  replay_request Hm Hj Hr; rewrite Hd; reduce; rewrite Hb; reduce.

Lemma emitted_app st (evs : list event) st' :
  trace st' = (trace st ++ evs)%list -> emitted st st' = evs.
Proof. intros E. unfold emitted. rewrite E. apply drop_app_length. Qed.

Lemma apiCall_returned method uri body result st response respBody :
  exchange_yields method uri body st response respBody ->
  returned (apiCall method uri body result st)
  = verdict (StatusCode response) (decode_error respBody result st).
Proof.
  intros (m & c & jb & rq & n & Hm & Hj & Hr & Hd & Hb).
  unfold returned, verdict, success, decode_error. replay Hm Hj Hr Hd Hb.
  all: destruct (200 <=? StatusCode response);
    destruct (StatusCode response <=? 299);
    destruct (StatusCode response =? 404);
    destruct (StatusCode response =? 409);
    destruct (500 <=? StatusCode response); try reflexivity.
  all: destruct result as [l|]; reduce; [| reflexivity].
  all: destruct (heap st !! l) as [s|]; reduce;
    [destruct (json_Unmarshal _ s) as [[e|] s'] |]; reflexivity.
Qed.

Lemma apiCall_heap method uri body result st response respBody :
  exchange_yields method uri body st response respBody ->
  heap (snd (apiCall method uri body result st))
  = if success (StatusCode response)
    then decoded_heap respBody result st
    else heap st.
Proof.
  intros (m & c & jb & rq & n & Hm & Hj & Hr & Hd & Hb).
  unfold success, decoded_heap. replay Hm Hj Hr Hd Hb.
  all: destruct (200 <=? StatusCode response);
    destruct (StatusCode response <=? 299);
    destruct (StatusCode response =? 404);
    destruct (StatusCode response =? 409);
    destruct (500 <=? StatusCode response); try reflexivity.
  all: destruct result as [l|]; reduce; [| reflexivity].
  all: destruct (heap st !! l) as [s|]; reduce;
    [destruct (json_Unmarshal _ s) as [[e|] s'] |]; reflexivity.
Qed.

Lemma success_in code : 200 <= code <= 299 -> success code = true.
Proof. intros. unfold success. apply andb_true_iff. lia. Qed.

Lemma success_out code : ~ (200 <= code <= 299) -> success code = false.
Proof. intros. unfold success. apply andb_false_iff. lia. Qed.

(** Case analysis on every outcome a call can meet. *)
Ltac split_run :=
  repeat match goal with
    | |- context [GetMember ?c] =>
        destruct (GetMember c) as [[?|?] ?] eqn:?; reduce
    | |- context [match ?body with Some _ => _ | None => _ end] =>
        is_var body; destruct body; reduce
    | |- context [json_Marshal ?b] => destruct (json_Marshal b) eqn:?; reduce
    | |- context [NewRequest ?m ?u ?b] =>
        destruct (NewRequest m u b) eqn:?; reduce
    | |- context [Client_Do ?c ?r ?n] =>
        destruct (Client_Do c r n) as [[?|?] ?] eqn:?; reduce
    | |- context [ioutil_ReadAll ?r] =>
        destruct (ioutil_ReadAll r) eqn:?; reduce
    | |- context [if ?b then _ else _] => destruct b eqn:?; reduce
    | |- context [heap ?st !! ?l] => destruct (heap st !! l) eqn:?; reduce
    | |- context [json_Unmarshal ?b ?s] =>
        destruct (json_Unmarshal b s) as [[?|] ?] eqn:?; reduce
    end.

Lemma NewRequest_empty_Header method url (b : bytes) rq :
  NewRequest method url b = inr rq -> Header rq = ∅.
Proof.
  unfold NewRequest. destruct (http_validate _ url); [discriminate |].
  intros [= <-]. reflexivity.
Qed.

Lemma apiCall_run method uri body result st :
  exists evs,
    trace (snd (apiCall method uri body result st)) = (trace st ++ evs)%list
    /\ count isGetMember evs = 1%nat
    /\ (count isDo evs <= 1)%nat
    /\ (result = None -> count isUnmarshal evs = 0%nat)
    /\ (count isUnmarshal evs = 0%nat ->
        heap (snd (apiCall method uri body result st)) = heap st)
    /\ (forall request, In (EvDo request) evs ->
        exists rq, Header rq = ∅
                   /\ request = add_headers (config (self st)) rq).
Proof.
  unfold_call. reduce. split_run.
  all: rewrite <- ?app_assoc; cbn [app]; eexists; split; [reflexivity |].
  all: repeat split; simpl; try lia; try discriminate; try congruence.
  all: intros request Hin;
    repeat (destruct Hin as [Hin | Hin]; [try discriminate |]);
    try contradiction.
  all: injection Hin as <-; eexists; split;
    [eapply NewRequest_empty_Header; eassumption | reflexivity].
Qed.

(** ** Status classification *)

(** C3. Once the exchange has yielded a response, status 404 makes
    [apiCall] return [ErrDoesNotExist] and status 409 makes it return
    [ErrConflict], for every method, path, body and result. *)
Theorem apiCall_404_409 method uri body result st response respBody :
  exchange_yields method uri body st response respBody ->
  (StatusCode response = 404 ->
   returned (apiCall method uri body result st) = Some ErrDoesNotExist)
  /\ (StatusCode response = 409 ->
      returned (apiCall method uri body result st) = Some ErrConflict).
Proof.
  intros Hx. rewrite (apiCall_returned _ _ _ _ _ _ _ Hx).
  split; intros ->; reflexivity.
Qed.

Lemma verdict_classes code decode : In (verdict code decode) classes.
Proof.
  unfold verdict, classes.
  destruct (success code), decode, (code =? 404), (code =? 409); simpl; auto.
Qed.

(** C4. After the exchange, every status outside 200..299 other than
    404 and 409 (so every status from 500 up, and also every status
    below 200 or from 300 to 499) gives [ErrInvalidResponse]; and
    whatever the status, the value returned is exactly one of nil,
    [ErrInvalidResponse], [ErrDoesNotExist] and [ErrConflict]. *)
Theorem apiCall_classification_total method uri body result st response respBody :
  exchange_yields method uri body st response respBody ->
  (~ (200 <= StatusCode response <= 299) ->
   StatusCode response <> 404 -> StatusCode response <> 409 ->
   returned (apiCall method uri body result st) = Some ErrInvalidResponse)
  /\ (500 <= StatusCode response ->
      returned (apiCall method uri body result st) = Some ErrInvalidResponse)
  /\ (exists! o, In o classes
                 /\ returned (apiCall method uri body result st) = o).
Proof.
  intros Hx. rewrite (apiCall_returned _ _ _ _ _ _ _ Hx).
  assert (Hout : ~ (200 <= StatusCode response <= 299) ->
                 StatusCode response <> 404 -> StatusCode response <> 409 ->
                 verdict (StatusCode response) (decode_error respBody result st)
                 = Some ErrInvalidResponse).
  { intros Hr H404 H409. unfold verdict. rewrite (success_out _ Hr).
    destruct (Z.eqb_spec (StatusCode response) 404); [contradiction |].
    destruct (Z.eqb_spec (StatusCode response) 409); [contradiction |].
    reflexivity. }
  split; [exact Hout | split; [intros; apply Hout; lia |]].
  exists (verdict (StatusCode response) (decode_error respBody result st)).
  split; [split; [apply verdict_classes | reflexivity] | intros o [_ Ho]; exact Ho].
Qed.

(** ** Success and decoding *)

(** C1. After an exchange that yields a status in 200..299: with a
    non-nil result whose pointee [json.Unmarshal] decodes the body
    into without error, [apiCall] returns nil and the pointee holds
    exactly the decoded value; with a nil result, [apiCall] returns
    nil, leaves the heap alone and never calls [json.Unmarshal]. *)
Theorem apiCall_2xx_success method uri body result st response respBody :
  exchange_yields method uri body st response respBody ->
  200 <= StatusCode response <= 299 ->
  (forall l s s',
      result = Some l -> heap st !! l = Some s ->
      json_Unmarshal respBody s = (None, s') ->
      returned (apiCall method uri body result st) = None
      /\ heap (snd (apiCall method uri body result st)) = <[l := s']> (heap st))
  /\ (result = None ->
      returned (apiCall method uri body result st) = None
      /\ heap (snd (apiCall method uri body result st)) = heap st
      /\ count isUnmarshal (emitted st (snd (apiCall method uri body result st)))
         = 0%nat).
Proof.
  intros Hx Hs.
  rewrite (apiCall_returned _ _ _ _ _ _ _ Hx), (apiCall_heap _ _ _ _ _ _ _ Hx).
  unfold verdict. rewrite (success_in _ Hs). split.
  - intros l s s' -> Hl Hu. unfold decode_error, decoded_heap.
    rewrite Hl, Hu. split; reflexivity.
  - intros ->. repeat split.
    destruct (apiCall_run method uri body None st)
      as (evs & Ht & _ & _ & Hnone & _).
    rewrite (emitted_app _ _ _ Ht). apply Hnone. reflexivity.
Qed.

(** C2. After an exchange that yields a status in 200..299, a non-nil
    result that the body fails to decode into makes [apiCall] return
    [ErrInvalidResponse], whichever status of the range it is. *)
Theorem apiCall_2xx_undecodable method uri body l st response respBody :
  exchange_yields method uri body st response respBody ->
  200 <= StatusCode response <= 299 ->
  (forall s, heap st !! l = Some s -> fst (json_Unmarshal respBody s) <> None) ->
  returned (apiCall method uri body (Some l) st) = Some ErrInvalidResponse.
Proof.
  intros Hx Hs Hfail.
  rewrite (apiCall_returned _ _ _ _ _ _ _ Hx).
  unfold verdict, decode_error. rewrite (success_in _ Hs).
  destruct (heap st !! l) as [s|]; [| reflexivity].
  specialize (Hfail s eq_refl).
  destruct (fst (json_Unmarshal respBody s)); [reflexivity | contradiction].
Qed.

(** ** Failures before the exchange *)

(** C5. When the cluster hands out no member, [apiCall] returns the
    cluster's error itself (the invalid-endpoint error when that is
    what the cluster reports), and the only thing it has done is the
    call to [GetMember]: nothing was serialized, no request was built,
    nothing was sent, and the network and the heap are as before. *)
Theorem apiCall_no_member method uri body result st err c :
  GetMember (cluster (self st)) = (inl err, c) ->
  returned (apiCall method uri body result st) = Some err
  /\ emitted st (snd (apiCall method uri body result st)) = [EvGetMember]
  /\ net (snd (apiCall method uri body result st)) = net st
  /\ heap (snd (apiCall method uri body result st)) = heap st.
Proof.
  intros Hm. unfold returned, emitted. unfold_call. rewrite Hm. reduce.
  repeat split. apply drop_app_length.
Qed.

(** C6, as the code has it. When a member was handed out and
    [json.Marshal] rejects the non-nil body, [apiCall] returns the
    error of [json.Marshal] unchanged, which is not
    [ErrInvalidArgument]; no request is built and nothing is sent. *)
Theorem apiCall_marshal_failure method uri (b : V) result st marathon c e :
  GetMember (cluster (self st)) = (inr marathon, c) ->
  json_Marshal b = inl e ->
  returned (apiCall method uri (Some b) result st) = Some (JSONError e)
  /\ returned (apiCall method uri (Some b) result st) <> Some ErrInvalidArgument
  /\ emitted st (snd (apiCall method uri (Some b) result st))
     = [EvGetMember; EvMarshal]
  /\ net (snd (apiCall method uri (Some b) result st)) = net st.
Proof.
  intros Hm Hj. unfold returned, emitted. unfold_call.
  rewrite Hm. reduce. rewrite Hj. reduce.
  repeat split; [discriminate |].
  rewrite <- app_assoc. apply drop_app_length.
Qed.

(** ** Transport failures *)

(** C7, as the code has it. When the request was built and the
    client's deadline expires, either while [Do] waits for the
    response or while the body is read, [apiCall] returns the error
    of the HTTP library unchanged, which is not [ErrTimeoutError];
    [json.Unmarshal] is never called and the heap is as before. *)
Theorem apiCall_timeout method uri body result st marathon c jsonBody request :
  GetMember (cluster (self st)) = (inr marathon, c) ->
  marshal_body body = inr jsonBody ->
  NewRequest method (marathon ++ "/" ++ uri) jsonBody = inr request ->
  (forall e n,
      Client_Do (httpClient (self st)) (add_headers (config (self st)) request)
        (net st) = (inl e, n) ->
      Timeout e = true ->
      returned (apiCall method uri body result st) = Some (URLError e)
      /\ returned (apiCall method uri body result st) <> Some ErrTimeoutError
      /\ heap (snd (apiCall method uri body result st)) = heap st
      /\ count isUnmarshal (emitted st (snd (apiCall method uri body result st)))
         = 0%nat)
  /\ (forall response n msg,
        Client_Do (httpClient (self st)) (add_headers (config (self st)) request)
          (net st) = (inr response, n) ->
        Body_err response = Some (ReadError true msg) ->
        returned (apiCall method uri body result st) = Some (ReadError true msg)
        /\ returned (apiCall method uri body result st) <> Some ErrTimeoutError
        /\ heap (snd (apiCall method uri body result st)) = heap st
        /\ count isUnmarshal (emitted st (snd (apiCall method uri body result st)))
           = 0%nat).
Proof.
  intros Hm Hj Hr. split.
  - intros e n Hd _. unfold returned, emitted.
    replay_request Hm Hj Hr; rewrite Hd; reduce.
    all: repeat split; [discriminate |].
    all: rewrite <- ?app_assoc; rewrite drop_app_length; reflexivity.
  - intros response n msg Hd Hb. unfold returned, emitted.
    assert (Hread : ioutil_ReadAll response = inl (ReadError true msg))
      by (unfold ioutil_ReadAll; rewrite Hb; reflexivity).
    replay Hm Hj Hr Hd Hread.
    all: repeat split; [discriminate |].
    all: rewrite <- ?app_assoc; rewrite drop_app_length; reflexivity.
Qed.

(** A body that cannot be read to the end: the reader's error is
    returned before the status is looked at, whatever the status. *)
Lemma apiCall_read_failure method uri body result st response e :
  (exists marathon c jsonBody request n,
      GetMember (cluster (self st)) = (inr marathon, c)
      /\ marshal_body body = inr jsonBody
      /\ NewRequest method (marathon ++ "/" ++ uri) jsonBody = inr request
      /\ Client_Do (httpClient (self st)) (add_headers (config (self st)) request)
           (net st) = (inr response, n)) ->
  Body_err response = Some e ->
  returned (apiCall method uri body result st) = Some e.
Proof.
  intros (m & c & jb & rq & n & Hm & Hj & Hr & Hd) Hb.
  assert (Hread : ioutil_ReadAll response = inl e)
    by (unfold ioutil_ReadAll; rewrite Hb; reflexivity).
  unfold returned. replay Hm Hj Hr Hd Hread; reflexivity.
Qed.

(** ** One attempt per call *)

(** C8. Whatever happens, the events of one [apiCall] extend the
    trace, contain exactly one [GetMember] and at most one [Do]: the
    call asks the cluster for a member once and never sends twice. *)
Theorem apiCall_single_attempt method uri body result st :
  trace (snd (apiCall method uri body result st))
  = (trace st ++ emitted st (snd (apiCall method uri body result st)))%list
  /\ count isGetMember (emitted st (snd (apiCall method uri body result st)))
     = 1%nat
  /\ (count isDo (emitted st (snd (apiCall method uri body result st))) <= 1)%nat.
Proof.
  destruct (apiCall_run method uri body result st)
    as (evs & Ht & Hg & Hd & _).
  rewrite (emitted_app _ _ _ Ht). auto.
Qed.

(** ** Headers *)

Lemma add_headers_lookup cfg rq :
  Header rq = ∅ ->
  Header (add_headers cfg rq) !! "Content-Type" = Some ["application/json"]
  /\ Header (add_headers cfg rq) !! "Accept" = Some ["application/json"]
  /\ Header (add_headers cfg rq) !! "Authorization"
     = if String.eqb (HTTPBasicAuthUser cfg) ""
       then None
       else Some ["Basic " ++ basicAuth (HTTPBasicAuthUser cfg)
                                        (HTTPBasicPassword cfg)].
Proof.
  intros He. unfold add_headers, SetBasicAuth, with_Header, Header_Add, Header_Set.
  destruct (String.eqb (HTTPBasicAuthUser cfg) ""); cbn [negb Header];
    rewrite He; by simplify_map_eq.
Qed.

(** C9. Every request that [apiCall] hands to the HTTP client carries
    Content-Type: application/json and Accept: application/json, each
    once; it carries an Authorization header, the Basic credentials
    of the configured user and password, exactly when the configured
    user name is not empty, and none otherwise. *)
Theorem apiCall_request_headers method uri body result st request :
  In (EvDo request) (emitted st (snd (apiCall method uri body result st))) ->
  Header request !! "Content-Type" = Some ["application/json"]
  /\ Header request !! "Accept" = Some ["application/json"]
  /\ (is_Some (Header request !! "Authorization")
      <-> HTTPBasicAuthUser (config (self st)) <> "")
  /\ (HTTPBasicAuthUser (config (self st)) <> "" ->
      Header request !! "Authorization"
      = Some ["Basic " ++ basicAuth (HTTPBasicAuthUser (config (self st)))
                                     (HTTPBasicPassword (config (self st)))]).
Proof.
  destruct (apiCall_run method uri body result st)
    as (evs & Ht & _ & _ & _ & _ & Hreq).
  rewrite (emitted_app _ _ _ Ht). intros Hin.
  destruct (Hreq request Hin) as (rq & He & ->).
  destruct (add_headers_lookup (config (self st)) rq He) as (Hc & Ha & Hb).
  split; [exact Hc | split; [exact Ha |]]. rewrite Hb.
  destruct (String.eqb_spec (HTTPBasicAuthUser (config (self st))) "") as [E|E].
  - split; [split |]; intros X; try contradiction.
    destruct X as [? X]; discriminate.
  - split; [split |]; intros; eauto.
Qed.

(** ** Ping *)

Variable marathonAPIPing : string.

(** C10. [Ping] answers [(true, nil)] exactly when the GET of the
    ping path returns nil, and [(false, err)] exactly when that GET
    returns [err]; it never answers true with an error or false
    without one, and it leaves the state the GET left. *)
Theorem Ping_result st :
  (returned (apiCall "GET" marathonAPIPing (@None V) None st) = None
   <-> fst (Ping marathonAPIPing (V := V) st) = (true, None))
  /\ (forall err,
        returned (apiCall "GET" marathonAPIPing (@None V) None st) = Some err
        <-> fst (Ping marathonAPIPing (V := V) st) = (false, Some err))
  /\ (forall err, fst (Ping marathonAPIPing (V := V) st) <> (true, Some err))
  /\ fst (Ping marathonAPIPing (V := V) st) <> (false, None)
  /\ snd (Ping marathonAPIPing (V := V) st)
     = snd (apiCall "GET" marathonAPIPing (@None V) None st).
Proof.
  unfold Ping, apiGet, returned.
  destruct (apiCall "GET" marathonAPIPing None None st) as [[e|[]] st'];
    cbn [fst snd].
  - repeat split; try discriminate; try congruence.
  - repeat split; try discriminate; try congruence.
Qed.

(** * Further properties of the dispatcher *)

(** Case analysis on a whole run, with the emitted events laid bare. *)
Ltac run_cases :=
  unfold returned, emitted; unfold_call; reduce; split_run;
  rewrite <- ?app_assoc; cbn [app]; rewrite ?drop_app_length.

Lemma NewRequest_fields method url (b : bytes) rq :
  NewRequest method url b = inr rq ->
  Method rq = (if String.eqb method "" then "GET" else method)%string
  /\ Req_URL rq = url /\ Req_Body rq = b /\ Header rq = ∅.
Proof.
  unfold NewRequest. destruct (http_validate _ url); [discriminate |].
  intros [= <-]. repeat split.
Qed.

Lemma add_headers_fields cfg rq :
  Method (add_headers cfg rq) = Method rq
  /\ Req_URL (add_headers cfg rq) = Req_URL rq
  /\ Req_Body (add_headers cfg rq) = Req_Body rq.
Proof.
  unfold add_headers, SetBasicAuth, with_Header.
  destruct (negb _); repeat split.
Qed.

(** The heap after a call: untouched, or changed at the result only. *)
Lemma apiCall_heap_cases method uri body result st :
  heap (snd (apiCall method uri body result st)) = heap st
  \/ exists l s', result = Some l
       /\ heap (snd (apiCall method uri body result st)) = <[l := s']> (heap st).
Proof. run_cases; eauto. Qed.

(** ** What a call leaves alone *)

(** X2. A call changes the client only through its one [GetMember]:
    afterwards the configuration, the HTTP client, the listeners and
    the other fields are as before, and the cluster is in the state
    that [GetMember] left. *)
Theorem apiCall_client_frame method uri body result st :
  config (self (snd (apiCall method uri body result st))) = config (self st)
  /\ httpClient (self (snd (apiCall method uri body result st)))
     = httpClient (self st)
  /\ listeners (self (snd (apiCall method uri body result st)))
     = listeners (self st)
  /\ subscribedToSSE (self (snd (apiCall method uri body result st)))
     = subscribedToSSE (self st)
  /\ ipAddress (self (snd (apiCall method uri body result st)))
     = ipAddress (self st)
  /\ cluster (self (snd (apiCall method uri body result st)))
     = snd (GetMember (cluster (self st))).
Proof. run_cases; repeat split. Qed.


(** X4. When a call returns an error other than [ErrInvalidResponse],
    [json.Unmarshal] was not called and the heap is as it was: the
    result of the caller is untouched on 404, on 409 and on every
    failure before the status is read. *)
Theorem apiCall_error_keeps_sink method uri body result st e :
  returned (apiCall method uri body result st) = Some e ->
  e <> ErrInvalidResponse ->
  heap (snd (apiCall method uri body result st)) = heap st
  /\ count isUnmarshal (emitted st (snd (apiCall method uri body result st)))
     = 0%nat.
Proof.
  run_cases; intros [= <-] Hne; try contradiction; split; reflexivity.
Qed.

(** ** What is sent *)

(** Every request a call sends was built by [http.NewRequest] from the
    member the cluster handed out and the serialized body. *)
Lemma apiCall_requests method uri body result st request :
  In (EvDo request) (emitted st (snd (apiCall method uri body result st))) ->
  exists marathon c jsonBody rq,
    GetMember (cluster (self st)) = (inr marathon, c)
    /\ marshal_body body = inr jsonBody
    /\ NewRequest method (marathon ++ "/" ++ uri) jsonBody = inr rq
    /\ request = add_headers (config (self st)) rq.
Proof.
  run_cases; intros Hin;
    repeat (destruct Hin as [Hin | Hin]; [try discriminate |]);
    try contradiction.
  all: injection Hin as <-; do 4 eexists; repeat split; eassumption.
Qed.

(** X5. A request sent by a call goes to the member handed out by the
    cluster, at the member's address followed by a slash and the path;
    its method is the one asked for (GET for the empty method) and its
    body is the serialized request body. *)
Theorem apiCall_request_target method uri body result st request :
  In (EvDo request) (emitted st (snd (apiCall method uri body result st))) ->
  exists marathon c jsonBody,
    GetMember (cluster (self st)) = (inr marathon, c)
    /\ marshal_body body = inr jsonBody
    /\ Req_URL request = (marathon ++ "/" ++ uri)%string
    /\ Req_Body request = jsonBody
    /\ (method <> ""%string -> Method request = method)
    /\ (method = ""%string -> Method request = "GET"%string).
Proof.
  intros Hin.
  destruct (apiCall_requests _ _ _ _ _ _ Hin)
    as (m & c & jb & rq & Hm & Hj & Hr & ->).
  destruct (add_headers_fields (config (self st)) rq) as (-> & -> & ->).
  destruct (NewRequest_fields _ _ _ _ Hr) as (-> & -> & -> & _).
  exists m, c, jb. repeat split; try assumption.
  - intros Hne. destruct (String.eqb_spec method ""); [contradiction | reflexivity].
  - intros ->. reflexivity.
Qed.

(** X6. The four wrappers send with their own method: what [apiGet]
    sends is a GET, what [apiPut] sends a PUT, [apiPost] a POST and
    [apiDelete] a DELETE. *)
Theorem api_wrappers_method uri (post : option V) result st request :
  (In (EvDo request) (emitted st (snd (apiGet uri post result st))) ->
   Method request = "GET"%string)
  /\ (In (EvDo request) (emitted st (snd (apiPut uri post result st))) ->
      Method request = "PUT"%string)
  /\ (In (EvDo request) (emitted st (snd (apiPost uri post result st))) ->
      Method request = "POST"%string)
  /\ (In (EvDo request) (emitted st (snd (apiDelete uri post result st))) ->
      Method request = "DELETE"%string).
Proof.
  unfold apiGet, apiPut, apiPost, apiDelete.
  repeat split; intros Hin;
    destruct (apiCall_requests _ _ _ _ _ _ Hin)
      as (m & c & jb & rq & _ & _ & Hr & ->);
    destruct (add_headers_fields (config (self st)) rq) as (-> & _);
    destruct (NewRequest_fields _ _ _ _ Hr) as (-> & _); reflexivity.
Qed.

(** X7. With a nil body a call never invokes [json.Marshal], and what
    it sends has an empty body. *)
Theorem apiCall_nil_body method uri result st :
  count isMarshal (emitted st (snd (apiCall method uri (@None V) result st)))
  = 0%nat
  /\ (forall request,
        In (EvDo request) (emitted st (snd (apiCall method uri (@None V) result st))) ->
        Req_Body request = []).
Proof.
  split.
  - run_cases; reflexivity.
  - intros request Hin.
    destruct (apiCall_requests _ _ _ _ _ _ Hin)
      as (m & c & jb & rq & _ & Hj & Hr & ->).
    destruct (add_headers_fields (config (self st)) rq) as (_ & _ & ->).
    destruct (NewRequest_fields _ _ _ _ Hr) as (_ & _ & -> & _).
    injection Hj as <-. reflexivity.
Qed.


(** ** When the result is decoded *)

(** X9. [json.Unmarshal] is called at most once in a call, and only
    into the caller's result, on the body read in full from a response
    whose status lies in 200..299. *)
Theorem apiCall_decodes_only_2xx method uri body result st :
  (count isUnmarshal (emitted st (snd (apiCall method uri body result st))) <= 1)%nat
  /\ (forall b l,
        In (EvUnmarshal b l) (emitted st (snd (apiCall method uri body result st))) ->
        result = Some l
        /\ exists request n response,
            Client_Do (httpClient (self st)) request (net st) = (inr response, n)
            /\ 200 <= StatusCode response <= 299
            /\ ioutil_ReadAll response = inr b).
Proof.
  run_cases; (split; [simpl; lia |]); intros b' l' Hin;
    repeat (destruct Hin as [Hin | Hin]; [try discriminate |]);
    try contradiction.
  all: injection Hin as <- <-; split; [reflexivity |].
  all: do 3 eexists; split; [eassumption |].
  all: match goal with
       | Hb : _ && _ = true |- _ => apply andb_true_iff in Hb; destruct Hb
       end; split; [lia | assumption].
Qed.

(** ** The response body is closed *)

(** X10. A call closes a response body at most once; it closes one
    exactly when [Do] gave it a response, whatever happens afterwards
    (unreadable body, any status, failed decoding), and the close is
    then the last thing the call does. *)
Theorem apiCall_closes_body method uri body result st :
  (count isClose (emitted st (snd (apiCall method uri body result st))) <= 1)%nat
  /\ (count isClose (emitted st (snd (apiCall method uri body result st))) = 1%nat
      <-> exists request n response,
          In (EvDo request) (emitted st (snd (apiCall method uri body result st)))
          /\ Client_Do (httpClient (self st)) request (net st) = (inr response, n))
  /\ (count isClose (emitted st (snd (apiCall method uri body result st))) = 1%nat ->
      last (emitted st (snd (apiCall method uri body result st))) = Some EvClose).
Proof.
  run_cases; (split; [simpl; lia |]); (split; [split |]);
    try (simpl; discriminate); try (intros _; reflexivity).
  all: try (intros _; do 3 eexists; split; [| eassumption]; simpl; tauto).
  all: intros (request & n' & response & Hin & Hd);
    repeat (destruct Hin as [Hin | Hin]; [try discriminate |]);
    try contradiction.
  all: injection Hin as <-; congruence.
Qed.

(** ** Failures on the way to the response *)

Ltac emitted_list := rewrite <- ?app_assoc; cbn [app]; rewrite ?drop_app_length.

(** X11. When [http.NewRequest] rejects the method or the address,
    the call returns that error unchanged; nothing is sent, and the
    network and the heap are as before. *)
Theorem apiCall_request_rejected method uri body result st marathon c jsonBody e :
  GetMember (cluster (self st)) = (inr marathon, c) ->
  marshal_body body = inr jsonBody ->
  NewRequest method (marathon ++ "/" ++ uri) jsonBody = inl e ->
  returned (apiCall method uri body result st) = Some e
  /\ count isDo (emitted st (snd (apiCall method uri body result st))) = 0%nat
  /\ net (snd (apiCall method uri body result st)) = net st
  /\ heap (snd (apiCall method uri body result st)) = heap st.
Proof.
  intros Hm Hj Hr. unfold returned, emitted.
  replay_request Hm Hj Hr; emitted_list; repeat split.
Qed.

(** X12. When [Do] fails, for whatever reason, the call returns the
    error of the HTTP client unchanged and stops there: [Do] is its
    last event, so no body is read or closed and nothing is logged or
    decoded; the network is as [Do] left it and the heap as before. *)
Theorem apiCall_transport_failure method uri body result st marathon c jsonBody
    request e n :
  GetMember (cluster (self st)) = (inr marathon, c) ->
  marshal_body body = inr jsonBody ->
  NewRequest method (marathon ++ "/" ++ uri) jsonBody = inr request ->
  Client_Do (httpClient (self st)) (add_headers (config (self st)) request) (net st)
  = (inl e, n) ->
  returned (apiCall method uri body result st) = Some (URLError e)
  /\ last (emitted st (snd (apiCall method uri body result st)))
     = Some (EvDo (add_headers (config (self st)) request))
  /\ count isLog (emitted st (snd (apiCall method uri body result st))) = 0%nat
  /\ net (snd (apiCall method uri body result st)) = n
  /\ heap (snd (apiCall method uri body result st)) = heap st.
Proof.
  intros Hm Hj Hr Hd. unfold returned, emitted.
  replay_request Hm Hj Hr; rewrite Hd; reduce; emitted_list; repeat split.
Qed.

(** X13. When the response body cannot be read to the end, the call
    returns the reader's error whatever the status code is, even 200
    or 404; the exchange is not logged, nothing is decoded, the heap is
    as before, and the body is closed last. *)
Theorem apiCall_body_unreadable method uri body result st marathon c jsonBody
    request response n e :
  GetMember (cluster (self st)) = (inr marathon, c) ->
  marshal_body body = inr jsonBody ->
  NewRequest method (marathon ++ "/" ++ uri) jsonBody = inr request ->
  Client_Do (httpClient (self st)) (add_headers (config (self st)) request) (net st)
  = (inr response, n) ->
  Body_err response = Some e ->
  returned (apiCall method uri body result st) = Some e
  /\ count isLog (emitted st (snd (apiCall method uri body result st))) = 0%nat
  /\ count isUnmarshal (emitted st (snd (apiCall method uri body result st)))
     = 0%nat
  /\ last (emitted st (snd (apiCall method uri body result st))) = Some EvClose
  /\ heap (snd (apiCall method uri body result st)) = heap st.
Proof.
  intros Hm Hj Hr Hd Hb. unfold returned, emitted.
  assert (Hread : ioutil_ReadAll response = inl e)
    by (unfold ioutil_ReadAll; rewrite Hb; reflexivity).
  replay Hm Hj Hr Hd Hread; emitted_list; repeat split.
Qed.

(** ** After the response *)

(** X14. When a 2xx body fails to decode into a live result, the call
    returns [ErrInvalidResponse], logs the decoding error, and leaves
    in the result whatever [json.Unmarshal] left there: the previous
    value is not restored. *)
Theorem apiCall_decode_failure_state method uri body l st response respBody s e s' :
  exchange_yields method uri body st response respBody ->
  200 <= StatusCode response <= 299 ->
  heap st !! l = Some s ->
  json_Unmarshal respBody s = (Some e, s') ->
  returned (apiCall method uri body (Some l) st) = Some ErrInvalidResponse
  /\ heap (snd (apiCall method uri body (Some l) st)) = <[l := s']> (heap st)
  /\ In (EvLog (LogUnmarshalFailed e))
       (emitted st (snd (apiCall method uri body (Some l) st))).
Proof.
  intros Hx Hs Hl Hu. split; [| split].
  - rewrite (apiCall_returned _ _ _ _ _ _ _ Hx). unfold verdict, decode_error.
    rewrite (success_in _ Hs), Hl, Hu. reflexivity.
  - rewrite (apiCall_heap _ _ _ _ _ _ _ Hx). unfold decoded_heap.
    rewrite (success_in _ Hs), Hl, Hu. reflexivity.
  - destruct Hx as (m & c & jb & rq & n & Hm & Hj & Hr & Hd & Hb).
    apply success_in in Hs. unfold success in Hs. unfold emitted.
    replay Hm Hj Hr Hd Hb; rewrite Hs; reduce; rewrite Hl, Hu; reduce;
      emitted_list; simpl; tauto.
Qed.

(** X15. Once the body has been read the exchange is logged, with the
    method and address of the request, the request body, the status
    line and the response body; the second, unknown-error line is
    written exactly for the statuses that no branch names: those below
    200, and those from 300 to 499 other than 404 and 409. *)
Theorem apiCall_logs method uri body result st response respBody :
  exchange_yields method uri body st response respBody ->
  (exists request jsonBody,
      In (EvDo request) (emitted st (snd (apiCall method uri body result st)))
      /\ marshal_body body = inr jsonBody
      /\ In (EvLog (LogCall (Method request) (Req_URL request) jsonBody
                      (Status response) respBody))
           (emitted st (snd (apiCall method uri body result st))))
  /\ (In (EvLog (LogUnknown respBody))
         (emitted st (snd (apiCall method uri body result st)))
      <-> StatusCode response < 200
          \/ (300 <= StatusCode response < 500
              /\ StatusCode response <> 404 /\ StatusCode response <> 409)).
Proof.
  intros (m & c & jb & rq & n & Hm & Hj & Hr & Hd & Hb).
  assert (Hj' := Hj). unfold emitted.
  replay Hm Hj' Hr Hd Hb.
  all: destruct (Z.leb_spec 200 (StatusCode response));
    destruct (Z.leb_spec (StatusCode response) 299);
    destruct (Z.eqb_spec (StatusCode response) 404);
    destruct (Z.eqb_spec (StatusCode response) 409);
    destruct (Z.leb_spec 500 (StatusCode response)); reduce; try lia.
  all: try (destruct result as [l|]; reduce;
            [destruct (heap st !! l) as [s|]; reduce;
             [destruct (json_Unmarshal _ s) as [[e|] s'] |] |]; reduce).
  all: emitted_list.
  all: split;
    [do 2 eexists; split; [| split; [eassumption |]]; simpl; tauto |].
  all: simpl; split;
    [intros Hin;
     repeat (destruct Hin as [Hin | Hin]; [try discriminate |]);
     try contradiction; lia
    | intros; try lia; tauto].
Qed.

(** ** Ping *)

(** X16. When the exchange of a [Ping] goes through, the answer is
    true exactly for a status in 200..299; the response body plays no
    part. *)
Theorem Ping_status st response respBody :
  exchange_yields "GET" marathonAPIPing (@None V) st response respBody ->
  (fst (fst (Ping marathonAPIPing (V := V) st)) = true
   <-> 200 <= StatusCode response <= 299)
  /\ (200 <= StatusCode response <= 299 ->
      fst (Ping marathonAPIPing (V := V) st) = (true, None))
  /\ (StatusCode response = 404 ->
      fst (Ping marathonAPIPing (V := V) st) = (false, Some ErrDoesNotExist)).
Proof.
  intros Hx.
  pose proof (apiCall_returned _ _ _ None _ _ _ Hx) as Hr.
  unfold Ping, apiGet. unfold returned in Hr.
  destruct (apiCall "GET" marathonAPIPing None None st) as [[e|[]] st'];
    cbn [fst snd] in *; unfold verdict, decode_error in Hr.
  - destruct (success (StatusCode response)) eqn:E; [discriminate |].
    assert (Hout : ~ (200 <= StatusCode response <= 299)).
    { unfold success in E. apply andb_false_iff in E. lia. }
    repeat split; try discriminate; try contradiction.
    intros E4. rewrite E4 in Hr. injection Hr as <-. reflexivity.
  - destruct (success (StatusCode response)) eqn:E.
    + unfold success in E. apply andb_true_iff in E.
      repeat split; lia.
    + destruct (StatusCode response =? 404), (StatusCode response =? 409);
        discriminate.
Qed.

(** X17. Whatever happens, [Ping] writes to no heap cell and calls
    [json.Unmarshal] never; what it sends is a GET with an empty body
    to the ping path of the member it was handed. *)
Theorem Ping_effects st :
  heap (snd (Ping marathonAPIPing (V := V) st)) = heap st
  /\ count isUnmarshal (emitted st (snd (Ping marathonAPIPing (V := V) st)))
     = 0%nat
  /\ (forall request,
        In (EvDo request) (emitted st (snd (Ping marathonAPIPing (V := V) st))) ->
        Method request = "GET"%string
        /\ Req_Body request = []
        /\ exists marathon c,
            GetMember (cluster (self st)) = (inr marathon, c)
            /\ Req_URL request = (marathon ++ "/" ++ marathonAPIPing)%string).
Proof.
  assert (E : snd (Ping marathonAPIPing (V := V) st)
              = snd (apiCall "GET" marathonAPIPing (@None V) None st)).
  { unfold Ping, apiGet.
    destruct (apiCall "GET" marathonAPIPing None None st) as [[e|[]] st'];
      reflexivity. }
  rewrite E. split; [| split].
  - destruct (apiCall_heap_cases "GET" marathonAPIPing (@None V) None st)
      as [-> | (l & s' & Hl & _)]; [reflexivity | discriminate].
  - destruct (apiCall_run "GET" marathonAPIPing (@None V) None st)
      as (evs & Ht & _ & _ & Hnone & _).
    rewrite (emitted_app _ _ _ Ht). apply Hnone. reflexivity.
  - intros request Hin.
    destruct (apiCall_requests _ _ _ _ _ _ Hin)
      as (m & c & jb & rq & Hm & Hj & Hr & ->).
    destruct (add_headers_fields (config (self st)) rq) as (-> & -> & ->).
    destruct (NewRequest_fields _ _ _ _ Hr) as (-> & -> & -> & _).
    injection Hj as <-. repeat split. exists m, c. split; [assumption | reflexivity].
Qed.

(** X19. A call returns nil only after [Do] gave it a response with a
    status in 200..299 whose body it read to the end and, for a
    non-nil result, decoded into a live cell without error. *)
Theorem apiCall_nil_only_2xx method uri body result st :
  returned (apiCall method uri body result st) = None ->
  exists request n response respBody,
    In (EvDo request) (emitted st (snd (apiCall method uri body result st)))
    /\ Client_Do (httpClient (self st)) request (net st) = (inr response, n)
    /\ ioutil_ReadAll response = inr respBody
    /\ 200 <= StatusCode response <= 299
    /\ (forall l, result = Some l ->
        exists s, heap st !! l = Some s
                  /\ fst (json_Unmarshal respBody s) = None).
Proof.
  run_cases; intros [=].
  all: match goal with
       | Hb : _ && _ = true |- _ => apply andb_true_iff in Hb; destruct Hb
       end.
  all: do 4 eexists; split; [simpl; tauto |];
    split; [eassumption |]; split; [eassumption |]; split; [lia |].
  all: intros l' [=]; subst; eexists; (split; [eassumption |]).
  all: match goal with
       | Hu : json_Unmarshal _ _ = _ |- _ => rewrite Hu; reflexivity
       end.
Qed.

(** ** Where an error comes from *)

(** X18. An error returned by a call is the error of [GetMember], of
    [json.Marshal], of [http.NewRequest], of [Do] or of the body
    reader, handed on unchanged, or it is one of [ErrInvalidResponse],
    [ErrDoesNotExist] and [ErrConflict]; the call makes no other error
    of its own. *)
Theorem apiCall_error_provenance method uri body result st e :
  returned (apiCall method uri body result st) = Some e ->
  (exists c, GetMember (cluster (self st)) = (inl e, c))
  \/ (exists b je, body = Some b /\ json_Marshal b = inl je /\ e = JSONError je)
  \/ (exists url jsonBody, NewRequest method url jsonBody = inl e)
  \/ (exists request n ue,
        Client_Do (httpClient (self st)) request (net st) = (inl ue, n)
        /\ e = URLError ue)
  \/ (exists request n response,
        Client_Do (httpClient (self st)) request (net st) = (inr response, n)
        /\ ioutil_ReadAll response = inl e)
  \/ e = ErrInvalidResponse \/ e = ErrDoesNotExist \/ e = ErrConflict.
Proof.
  run_cases; intros [= <-]; eauto 15.
Qed.

(** ** Construction *)

Lemma wrap64_id x : - 2 ^ 63 <= x < 2 ^ 63 -> wrap64 x = x.
Proof. intros Hx. unfold wrap64. rewrite Z.mod_small; lia. Qed.

(** X1. [NewClient] fails exactly when [newCluster] rejects the
    configured address, with that error; otherwise the client keeps the
    configuration, has no listener, talks to the new cluster, and its
    HTTP timeout is the configured number of seconds (for a number the
    duration can hold), so that a configured 0 means no timeout. *)
Theorem NewClient_result (cfg : Config) :
  - 9223372036 <= RequestTimeout cfg <= 9223372036 ->
  match newCluster (Config_URL cfg) with
  | inl err => NewClient (C := C) cfg = inl err
  | inr c =>
      NewClient cfg
      = inr {| config := cfg;
               subscribedToSSE := false;
               ipAddress := "";
               httpClient := {| Client_Timeout := RequestTimeout cfg * Second |};
               cluster := c;
               listeners := ∅ |}
  end.
Proof.
  intros Hr. unfold NewClient.
  destruct (newCluster (Config_URL cfg)); [reflexivity |].
  rewrite (wrap64_id (RequestTimeout cfg)) by lia.
  rewrite wrap64_id by (unfold Second; lia). reflexivity.
Qed.

End DispatcherFacts.

(** * The dispatcher on concrete calls *)

Module Runs.

Import Fake.

Ltac exchange := do 5 eexists; repeat split; reflexivity.

Example base64_vectors :
  Base64.EncodeToString "" = ""%string
  /\ Base64.EncodeToString "f" = "Zg=="%string
  /\ Base64.EncodeToString "fo" = "Zm8="%string
  /\ Base64.EncodeToString "foo" = "Zm9v"%string
  /\ Base64.EncodeToString "foobar" = "Zm9vYmFy"%string
  /\ basicAuth "Aladdin" "open sesame" = "QWxhZGRpbjpvcGVuIHNlc2FtZQ=="%string.
Proof. repeat split; vm_compute; reflexivity. Qed.

(** [NewClient] on a five-second configuration. *)
Example NewClient_timeout :
  NewClient (C := pool) (cfg "" "")
  = inr {| config := cfg "" "";
           subscribedToSSE := false;
           ipAddress := "";
           httpClient := {| Client_Timeout := 5000000000 |};
           cluster := {| members := ["http://a:8080,http://b:8080"%string];
                         cursor := 0 |};
           listeners := ∅ |}.
Proof. reflexivity. Qed.

(** The first end-to-end scenario, with a number for the document:
    one member, GET answered 200. *)
Example run_scenario_1 :
  let r := apiCall "GET" "v2/apps/app1" (@None payload) (Some 1%positive)
             (world "" "" ["http://a:8080"%string] [response 200 "7"]) in
  returned r = None /\ heap (snd r) !! 1%positive = Some 7.
Proof. vm_compute. split; reflexivity. Qed.

(** The events of a POST that is answered 200, in order. *)
Example run_trace :
  map isDo (trace (snd (apiCall "POST" "v2/apps" (Some (PString "x")) (Some 1%positive)
                          (world "" "" two [response 200 "42"]))))
  = [false; false; false; true; false; false; false; false].
Proof. vm_compute. reflexivity. Qed.

(** Two calls in a row go to the two members in turn. *)
Example run_round_robin :
  let st1 := snd (apiCall "GET" "ping" (@None payload) None
                    (world "" "" two [response 200 "pong"; response 200 "pong"])) in
  map (fun e => match e with EvDo r => Req_URL r | _ => ""%string end)
    (filter (fun e => isDo e = true)
       (trace (snd (apiCall "GET" "ping" (@None payload) None st1))))
  = ["http://a:8080/ping"; "http://b:8080/ping"]%string.
Proof. vm_compute. reflexivity. Qed.

(** C1 at a GET answered 200 with body 42, decoded into cell 1. *)
Lemma apiCall_2xx_success_witness :
  exchange_yields "GET" "v2/apps" (@None payload)
    (world "" "" two [response 200 "42"]) (reply 200 "42") (bytes_of_string "42")
  /\ returned (apiCall "GET" "v2/apps" (@None payload) (Some 1%positive)
                 (world "" "" two [response 200 "42"])) = None
  /\ heap (snd (apiCall "GET" "v2/apps" (@None payload) (Some 1%positive)
                  (world "" "" two [response 200 "42"])))
     = <[1%positive := 42]> {[ 1%positive := 0 ]}.
Proof.
  assert (Hx : exchange_yields "GET" "v2/apps" (@None payload)
                 (world "" "" two [response 200 "42"]) (reply 200 "42")
                 (bytes_of_string "42")) by exchange.
  split; [exact Hx |].
  apply (proj1 (apiCall_2xx_success "GET" "v2/apps" None (Some 1%positive) _ _ _
                  Hx ltac:(simpl; lia)) 1%positive 0 42); reflexivity.
Defined.

(** C2 at a GET answered 201 with a body that is no number. *)
Lemma apiCall_2xx_undecodable_witness :
  returned (apiCall "GET" "v2/apps" (@None payload) (Some 1%positive)
              (world "" "" two [response 201 "4x"])) = Some ErrInvalidResponse.
Proof.
  apply (apiCall_2xx_undecodable "GET" "v2/apps" None 1%positive _
           (reply 201 "4x") (bytes_of_string "4x")).
  - exchange.
  - simpl; lia.
  - intros s _. vm_compute. discriminate.
Defined.

(** C3 at a GET answered 404 and a POST answered 409. *)
Lemma apiCall_404_409_witness :
  returned (apiCall "GET" "v2/apps/missing" (@None payload) (Some 1%positive)
              (world "" "" two [response 404 "gone"])) = Some ErrDoesNotExist
  /\ returned (apiCall "POST" "v2/apps" (Some (PString "app1")) None
                 (world "" "" two [response 409 "exists"])) = Some ErrConflict.
Proof.
  split.
  - apply (proj1 (apiCall_404_409 "GET" "v2/apps/missing" None (Some 1%positive)
                    (world "" "" two [response 404 "gone"])
                    (reply 404 "gone") (bytes_of_string "gone") ltac:(exchange)));
      reflexivity.
  - apply (proj2 (apiCall_404_409 "POST" "v2/apps" (Some (PString "app1")) None
                    (world "" "" two [response 409 "exists"])
                    (reply 409 "exists") (bytes_of_string "exists") ltac:(exchange)));
      reflexivity.
Defined.

(** C4 at a GET answered 302, which no branch names. *)
Lemma apiCall_classification_total_witness :
  returned (apiCall "GET" "v2/apps" (@None payload) (Some 1%positive)
              (world "" "" two [response 302 "moved"])) = Some ErrInvalidResponse.
Proof.
  apply (proj1 (apiCall_classification_total "GET" "v2/apps" None (Some 1%positive)
                  (world "" "" two [response 302 "moved"])
                  (reply 302 "moved") (bytes_of_string "moved") ltac:(exchange)));
    simpl; lia.
Defined.

(** C5 at a cluster without members. *)
Lemma apiCall_no_member_witness :
  returned (apiCall "GET" "v2/apps" (Some (PString "x")) (Some 1%positive)
              (world "" "" [] [response 200 "42"])) = Some ErrInvalidEndpoint
  /\ emitted (world "" "" [] [response 200 "42"])
       (snd (apiCall "GET" "v2/apps" (Some (PString "x")) (Some 1%positive)
               (world "" "" [] [response 200 "42"]))) = [EvGetMember]
  /\ net (snd (apiCall "GET" "v2/apps" (Some (PString "x")) (Some 1%positive)
                 (world "" "" [] [response 200 "42"]))) = [response 200 "42"]
  /\ heap (snd (apiCall "GET" "v2/apps" (Some (PString "x")) (Some 1%positive)
                  (world "" "" [] [response 200 "42"]))) = {[ 1%positive := 0 ]}.
Proof.
  apply (apiCall_no_member "GET" "v2/apps" (Some (PString "x")) (Some 1%positive)
           (world "" "" [] [response 200 "42"]) ErrInvalidEndpoint
           {| members := []; cursor := 0 |}).
  reflexivity.
Defined.

(** C6 as stated fails: a channel body is rejected by [json.Marshal]
    and the caller gets the error of [encoding/json], not
    [ErrInvalidArgument]. *)
Lemma apiCall_marshal_failure_counterexample :
  json_Marshal PChan = inl (UnsupportedTypeError "chan int")
  /\ returned (apiCall "POST" "v2/apps" (Some PChan) None
                 (world "" "" two [response 200 "42"]))
     = Some (JSONError (UnsupportedTypeError "chan int"))
  /\ returned (apiCall "POST" "v2/apps" (Some PChan) None
                 (world "" "" two [response 200 "42"]))
     <> Some ErrInvalidArgument.
Proof. repeat split. vm_compute. discriminate. Qed.

(** The amended C6 at the same call. *)
Lemma apiCall_marshal_failure_witness :
  returned (apiCall "POST" "v2/apps" (Some PChan) (Some 1%positive)
              (world "" "" two [response 200 "42"]))
  = Some (JSONError (UnsupportedTypeError "chan int"))
  /\ returned (apiCall "POST" "v2/apps" (Some PChan) (Some 1%positive)
                 (world "" "" two [response 200 "42"]))
     <> Some ErrInvalidArgument
  /\ emitted (world "" "" two [response 200 "42"])
       (snd (apiCall "POST" "v2/apps" (Some PChan) (Some 1%positive)
               (world "" "" two [response 200 "42"])))
     = [EvGetMember; EvMarshal]
  /\ net (snd (apiCall "POST" "v2/apps" (Some PChan) (Some 1%positive)
                 (world "" "" two [response 200 "42"])))
     = [response 200 "42"].
Proof.
  apply (apiCall_marshal_failure "POST" "v2/apps" PChan (Some 1%positive)
           (world "" "" two [response 200 "42"]) "http://a:8080"
           {| members := two; cursor := 1 |} (UnsupportedTypeError "chan int"));
    reflexivity.
Defined.

(** C7 as stated fails: when the client's deadline expires the caller
    gets the [*url.Error] of [net/http], not [ErrTimeoutError]. *)
Lemma apiCall_timeout_counterexample :
  Timeout timeout = true
  /\ returned (apiCall "GET" "v2/apps" (@None payload) (Some 1%positive)
                 (world "" "" two [inl timeout]))
     = Some (URLError timeout)
  /\ returned (apiCall "GET" "v2/apps" (@None payload) (Some 1%positive)
                 (world "" "" two [inl timeout]))
     <> Some ErrTimeoutError.
Proof. repeat split. vm_compute. discriminate. Qed.

(** The amended C7 at the same call, and at a call whose response
    arrives but whose body stalls. *)
Lemma apiCall_timeout_witness :
  (returned (apiCall "GET" "v2/apps" (@None payload) (Some 1%positive)
               (world "" "" two [inl timeout]))
   = Some (URLError timeout)
   /\ returned (apiCall "GET" "v2/apps" (@None payload) (Some 1%positive)
                  (world "" "" two [inl timeout]))
      <> Some ErrTimeoutError
   /\ heap (snd (apiCall "GET" "v2/apps" (@None payload) (Some 1%positive)
                   (world "" "" two [inl timeout])))
      = {[ 1%positive := 0 ]}
   /\ count isUnmarshal
        (emitted (world "" "" two [inl timeout])
           (snd (apiCall "GET" "v2/apps" (@None payload) (Some 1%positive)
                   (world "" "" two [inl timeout])))) = 0%nat)
  /\ (returned (apiCall "GET" "v2/apps" (@None payload) (Some 1%positive)
                  (world "" "" two [inr (stalled 200)]))
      = Some (ReadError true "context deadline exceeded")
      /\ returned (apiCall "GET" "v2/apps" (@None payload) (Some 1%positive)
                     (world "" "" two [inr (stalled 200)]))
         <> Some ErrTimeoutError
      /\ heap (snd (apiCall "GET" "v2/apps" (@None payload) (Some 1%positive)
                      (world "" "" two [inr (stalled 200)])))
         = {[ 1%positive := 0 ]}
      /\ count isUnmarshal
           (emitted (world "" "" two [inr (stalled 200)])
              (snd (apiCall "GET" "v2/apps" (@None payload) (Some 1%positive)
                      (world "" "" two [inr (stalled 200)])))) = 0%nat).
Proof.
  split.
  - assert (Ht := apiCall_timeout "GET" "v2/apps" (@None payload) (Some 1%positive)
                    (world "" "" two [inl timeout]) "http://a:8080"
                    {| members := two; cursor := 1 |} []
                    {| Method := "GET"; Req_URL := "http://a:8080/v2/apps";
                       Header := ∅; Req_Body := [] |}).
    apply (proj1 (Ht ltac:(reflexivity) ltac:(reflexivity) ltac:(reflexivity))
             timeout []); reflexivity.
  - assert (Ht := apiCall_timeout "GET" "v2/apps" (@None payload) (Some 1%positive)
                    (world "" "" two [inr (stalled 200)]) "http://a:8080"
                    {| members := two; cursor := 1 |} []
                    {| Method := "GET"; Req_URL := "http://a:8080/v2/apps";
                       Header := ∅; Req_Body := [] |}).
    apply (proj2 (Ht ltac:(reflexivity) ltac:(reflexivity) ltac:(reflexivity))
             (stalled 200) [] "context deadline exceeded"); reflexivity.
Defined.

(** C9 at a GET by a client configured with user admin. *)
Lemma apiCall_request_headers_witness :
  let request :=
    add_headers (cfg "admin" "secret")
      {| Method := "GET"; Req_URL := "http://a:8080/v2/apps";
         Header := ∅; Req_Body := [] |} in
  Header request !! "Content-Type"%string = Some ["application/json"%string]
  /\ Header request !! "Accept"%string = Some ["application/json"%string]
  /\ (is_Some (Header request !! "Authorization"%string)
      <-> HTTPBasicAuthUser (cfg "admin" "secret") <> ""%string)
  /\ (HTTPBasicAuthUser (cfg "admin" "secret") <> ""%string ->
      Header request !! "Authorization"%string
      = Some ["Basic YWRtaW46c2VjcmV0"%string]).
Proof.
  intros request.
  apply (apiCall_request_headers "GET" "v2/apps" (@None payload) (Some 1%positive)
           (world "admin" "secret" two [response 200 "42"]) request).
  vm_compute. do 2 right. left. reflexivity.
Defined.

End Runs.

(** * The further properties on concrete calls *)

Module MoreRuns.

Import Fake.

Ltac exchange := do 5 eexists; repeat split; reflexivity.

(** X1 at the five-second configuration. *)
Lemma NewClient_result_witness :
  NewClient (C := pool) (cfg "" "")
  = inr {| config := cfg "" "";
           subscribedToSSE := false;
           ipAddress := "";
           httpClient := {| Client_Timeout := 5 * Second |};
           cluster := {| members := ["http://a:8080,http://b:8080"%string];
                         cursor := 0 |};
           listeners := ∅ |}.
Proof.
  exact (NewClient_result (C := pool) (cfg "" "") ltac:(simpl; lia)).
Defined.


(** X4 at a GET answered 404. *)
Lemma apiCall_error_keeps_sink_witness :
  heap (snd (apiCall "GET" "v2/apps/missing" (@None payload) (Some 1%positive)
               (world "" "" two [response 404 "7"]))) = {[ 1%positive := 0 ]}
  /\ count isUnmarshal
       (emitted (world "" "" two [response 404 "7"])
          (snd (apiCall "GET" "v2/apps/missing" (@None payload) (Some 1%positive)
                  (world "" "" two [response 404 "7"])))) = 0%nat.
Proof.
  apply (apiCall_error_keeps_sink "GET" "v2/apps/missing" (@None payload)
           (Some 1%positive) (world "" "" two [response 404 "7"]) ErrDoesNotExist).
  - reflexivity.
  - discriminate.
Defined.

(** X5 at a POST of a string to the first member. *)
Lemma apiCall_request_target_witness :
  let request :=
    add_headers (cfg "" "")
      {| Method := "POST"; Req_URL := "http://a:8080/v2/apps"; Header := ∅;
         Req_Body := bytes_of_string (quote ++ "app1" ++ quote) |} in
  exists marathon c jsonBody,
    GetMember (cluster (self (world "" "" two [response 201 "1"])))
    = (inr marathon, c)
    /\ marshal_body (Some (PString "app1")) = inr jsonBody
    /\ Req_URL request = (marathon ++ "/" ++ "v2/apps")%string
    /\ Req_Body request = jsonBody
    /\ ("POST"%string <> ""%string -> Method request = "POST"%string)
    /\ ("POST"%string = ""%string -> Method request = "GET"%string).
Proof.
  intros request.
  apply (apiCall_request_target "POST" "v2/apps" (Some (PString "app1")) None
           (world "" "" two [response 201 "1"]) request).
  vm_compute. do 3 right. left. reflexivity.
Defined.


(** X11 at a method with a space in it. *)
Lemma apiCall_request_rejected_witness :
  returned (apiCall "GET IT" "v2/apps" (@None payload) (Some 1%positive)
              (world "" "" two [response 200 "42"]))
  = Some (OtherError "net/http: invalid method")
  /\ count isDo
       (emitted (world "" "" two [response 200 "42"])
          (snd (apiCall "GET IT" "v2/apps" (@None payload) (Some 1%positive)
                  (world "" "" two [response 200 "42"])))) = 0%nat
  /\ net (snd (apiCall "GET IT" "v2/apps" (@None payload) (Some 1%positive)
                 (world "" "" two [response 200 "42"]))) = [response 200 "42"]
  /\ heap (snd (apiCall "GET IT" "v2/apps" (@None payload) (Some 1%positive)
                  (world "" "" two [response 200 "42"]))) = {[ 1%positive := 0 ]}.
Proof.
  apply (apiCall_request_rejected "GET IT" "v2/apps" (@None payload)
           (Some 1%positive) (world "" "" two [response 200 "42"])
           "http://a:8080" {| members := two; cursor := 1 |} []
           (OtherError "net/http: invalid method")); reflexivity.
Defined.

(** X12 at a GET that nobody answers. *)
Lemma apiCall_transport_failure_witness :
  returned (apiCall "GET" "v2/apps" (@None payload) (Some 1%positive)
              (world "" "" two []))
  = Some (URLError (refused "GET" "http://a:8080/v2/apps"))
  /\ last (emitted (world "" "" two [])
             (snd (apiCall "GET" "v2/apps" (@None payload) (Some 1%positive)
                     (world "" "" two []))))
     = Some (EvDo (plain "GET" "http://a:8080/v2/apps"))
  /\ count isLog
       (emitted (world "" "" two [])
          (snd (apiCall "GET" "v2/apps" (@None payload) (Some 1%positive)
                  (world "" "" two [])))) = 0%nat
  /\ net (snd (apiCall "GET" "v2/apps" (@None payload) (Some 1%positive)
                 (world "" "" two []))) = []
  /\ heap (snd (apiCall "GET" "v2/apps" (@None payload) (Some 1%positive)
                  (world "" "" two []))) = {[ 1%positive := 0 ]}.
Proof.
  apply (apiCall_transport_failure "GET" "v2/apps" (@None payload)
           (Some 1%positive) (world "" "" two [])
           "http://a:8080" {| members := two; cursor := 1 |} []
           {| Method := "GET"; Req_URL := "http://a:8080/v2/apps";
              Header := ∅; Req_Body := [] |}
           (refused "GET" "http://a:8080/v2/apps") []); reflexivity.
Defined.

(** X13 at a 404 whose body stalls: the reader's error wins. *)
Lemma apiCall_body_unreadable_witness :
  returned (apiCall "GET" "v2/apps" (@None payload) (Some 1%positive)
              (world "" "" two [inr (stalled 404)]))
  = Some (ReadError true "context deadline exceeded")
  /\ count isLog
       (emitted (world "" "" two [inr (stalled 404)])
          (snd (apiCall "GET" "v2/apps" (@None payload) (Some 1%positive)
                  (world "" "" two [inr (stalled 404)])))) = 0%nat
  /\ count isUnmarshal
       (emitted (world "" "" two [inr (stalled 404)])
          (snd (apiCall "GET" "v2/apps" (@None payload) (Some 1%positive)
                  (world "" "" two [inr (stalled 404)])))) = 0%nat
  /\ last (emitted (world "" "" two [inr (stalled 404)])
             (snd (apiCall "GET" "v2/apps" (@None payload) (Some 1%positive)
                     (world "" "" two [inr (stalled 404)])))) = Some EvClose
  /\ heap (snd (apiCall "GET" "v2/apps" (@None payload) (Some 1%positive)
                  (world "" "" two [inr (stalled 404)]))) = {[ 1%positive := 0 ]}.
Proof.
  apply (apiCall_body_unreadable "GET" "v2/apps" (@None payload)
           (Some 1%positive) (world "" "" two [inr (stalled 404)])
           "http://a:8080" {| members := two; cursor := 1 |} []
           {| Method := "GET"; Req_URL := "http://a:8080/v2/apps";
              Header := ∅; Req_Body := [] |}
           (stalled 404) [] (ReadError true "context deadline exceeded"));
    reflexivity.
Defined.

(** X14 at a 200 whose body is no number. *)
Lemma apiCall_decode_failure_state_witness :
  returned (apiCall "GET" "v2/apps" (@None payload) (Some 1%positive)
              (world "" "" two [response 200 "4x"])) = Some ErrInvalidResponse
  /\ heap (snd (apiCall "GET" "v2/apps" (@None payload) (Some 1%positive)
                  (world "" "" two [response 200 "4x"])))
     = <[1%positive := 0]> {[ 1%positive := 0 ]}
  /\ In (EvLog (LogUnmarshalFailed (SyntaxError "invalid character" 0)))
       (emitted (world "" "" two [response 200 "4x"])
          (snd (apiCall "GET" "v2/apps" (@None payload) (Some 1%positive)
                  (world "" "" two [response 200 "4x"])))).
Proof.
  apply (apiCall_decode_failure_state "GET" "v2/apps" (@None payload) 1%positive
           (world "" "" two [response 200 "4x"]) (reply 200 "4x")
           (bytes_of_string "4x") 0 (SyntaxError "invalid character" 0) 0).
  - exchange.
  - simpl; lia.
  - reflexivity.
  - reflexivity.
Defined.

(** X15 at a GET answered 302: both lines are written. *)
Lemma apiCall_logs_witness :
  In (EvLog (LogUnknown (bytes_of_string "moved")))
    (emitted (world "" "" two [response 302 "moved"])
       (snd (apiCall "GET" "v2/apps" (@None payload) (Some 1%positive)
               (world "" "" two [response 302 "moved"])))).
Proof.
  apply (proj2 (apiCall_logs "GET" "v2/apps" (@None payload) (Some 1%positive)
                  (world "" "" two [response 302 "moved"]) (reply 302 "moved")
                  (bytes_of_string "moved") ltac:(exchange))).
  right. simpl. lia.
Defined.

(** X16 at a ping answered 200 with a body that is not JSON. *)
Lemma Ping_status_witness :
  fst (Ping "ping" (V := payload) (world "" "" two [response 200 "pong"]))
  = (true, None).
Proof.
  apply (Ping_status "ping" (V := payload) (world "" "" two [response 200 "pong"])
           (reply 200 "pong") (bytes_of_string "pong") ltac:(exchange)).
  simpl; lia.
Defined.

(** X18 at a POST answered 409. *)
Lemma apiCall_error_provenance_witness :
  (exists c, GetMember (cluster (self (world "" "" two [response 409 "exists"])))
             = (inl ErrConflict, c))
  \/ (exists b je, Some (PString "app1") = Some b
                   /\ json_Marshal b = inl je /\ ErrConflict = JSONError je)
  \/ (exists url jsonBody, NewRequest "POST" url jsonBody = inl ErrConflict)
  \/ (exists request n ue,
        Client_Do (httpClient (self (world "" "" two [response 409 "exists"])))
          request (net (world "" "" two [response 409 "exists"])) = (inl ue, n)
        /\ ErrConflict = URLError ue)
  \/ (exists request n resp,
        Client_Do (httpClient (self (world "" "" two [response 409 "exists"])))
          request (net (world "" "" two [response 409 "exists"])) = (inr resp, n)
        /\ ioutil_ReadAll resp = inl ErrConflict)
  \/ ErrConflict = ErrInvalidResponse \/ ErrConflict = ErrDoesNotExist
  \/ ErrConflict = ErrConflict.
Proof.
  apply (apiCall_error_provenance "POST" "v2/apps" (Some (PString "app1")) None
           (world "" "" two [response 409 "exists"]) ErrConflict).
  reflexivity.
Defined.

(** X19 at a GET answered 200 and decoded. *)
Lemma apiCall_nil_only_2xx_witness :
  exists request n resp respBody,
    In (EvDo request)
      (emitted (world "" "" two [response 200 "42"])
         (snd (apiCall "GET" "v2/apps" (@None payload) (Some 1%positive)
                 (world "" "" two [response 200 "42"]))))
    /\ Client_Do (httpClient (self (world "" "" two [response 200 "42"])))
         request (net (world "" "" two [response 200 "42"]))
       = (inr resp, n)
    /\ ioutil_ReadAll resp = inr respBody
    /\ 200 <= StatusCode resp <= 299
    /\ (forall l, Some 1%positive = Some l ->
        exists s, heap (world "" "" two [response 200 "42"]) !! l = Some s
                  /\ fst (json_Unmarshal respBody s) = None).
Proof.
  apply (apiCall_nil_only_2xx "GET" "v2/apps" (@None payload) (Some 1%positive)
           (world "" "" two [response 200 "42"])).
  reflexivity.
Defined.

(** X6 at a PUT and a DELETE. *)
Lemma api_wrappers_method_witness :
  Method (plain "PUT" "http://a:8080/v2/apps/app1") = "PUT"%string
  /\ Method (plain "DELETE" "http://a:8080/v2/apps/app1") = "DELETE"%string.
Proof.
  split.
  - apply (proj1 (proj2 (api_wrappers_method "v2/apps/app1" (@None payload) None
                           (world "" "" two [response 200 "1"])
                           (plain "PUT" "http://a:8080/v2/apps/app1")))).
    vm_compute. do 2 right. left. reflexivity.
  - apply (proj2 (proj2 (proj2
             (api_wrappers_method "v2/apps/app1" (@None payload) None
                (world "" "" two [response 200 "1"])
                (plain "DELETE" "http://a:8080/v2/apps/app1"))))).
    vm_compute. do 2 right. left. reflexivity.
Defined.

(** X7 at a GET. *)
Lemma apiCall_nil_body_witness :
  Req_Body (plain "GET" "http://a:8080/v2/apps") = [].
Proof.
  apply (proj2 (apiCall_nil_body (V := payload) "GET" "v2/apps" (Some 1%positive)
                  (world "" "" two [response 200 "42"]))).
  vm_compute. do 2 right. left. reflexivity.
Defined.

(** X9 at a GET answered 200: the one decoding is of that response. *)
Lemma apiCall_decodes_only_2xx_witness :
  Some 1%positive = Some 1%positive
  /\ exists request n resp,
      Client_Do (httpClient (self (world "" "" two [response 200 "42"]))) request
        (net (world "" "" two [response 200 "42"])) = (inr resp, n)
      /\ 200 <= StatusCode resp <= 299
      /\ ioutil_ReadAll resp = inr (bytes_of_string "42").
Proof.
  apply (proj2 (apiCall_decodes_only_2xx "GET" "v2/apps" (@None payload)
                  (Some 1%positive) (world "" "" two [response 200 "42"]))
           (bytes_of_string "42") 1%positive).
  vm_compute. do 5 right. left. reflexivity.
Defined.

(** X10 at a GET answered 500: the body is closed, and closed last. *)
Lemma apiCall_closes_body_witness :
  last (emitted (world "" "" two [response 500 "down"])
          (snd (apiCall "GET" "v2/apps" (@None payload) (Some 1%positive)
                  (world "" "" two [response 500 "down"])))) = Some EvClose.
Proof.
  apply (proj2 (proj2 (apiCall_closes_body "GET" "v2/apps" (@None payload)
                         (Some 1%positive)
                         (world "" "" two [response 500 "down"])))).
  reflexivity.
Defined.

(** X17 at a ping of the first member. *)
Lemma Ping_effects_witness :
  Method (plain "GET" "http://a:8080/ping") = "GET"%string
  /\ Req_Body (plain "GET" "http://a:8080/ping") = []
  /\ exists marathon c,
      GetMember (cluster (self (world "" "" two [response 200 "pong"])))
      = (inr marathon, c)
      /\ Req_URL (plain "GET" "http://a:8080/ping")
         = (marathon ++ "/" ++ "ping")%string.
Proof.
  apply (proj2 (proj2 (Ping_effects "ping" (V := payload)
                         (world "" "" two [response 200 "pong"])))).
  vm_compute. do 2 right. left. reflexivity.
Defined.

End MoreRuns.
